(** * MorseFlasher: the torch state reconciler of [src/app/_layout.tsx]

    The [App] component keeps five [useState] cells and two [useRef]
    cells, registers three effects, and exposes four callbacks.  It is
    embedded here as a record of the cells, one state transformer per
    callback or promise continuation, and a [commit] function that plays
    the effects React runs after a render.  Promises that are awaited
    are kept in the state as a list of suspended tasks; a task that came
    out of [toggleFlashlight] carries the values its closure captured. *)

From Stdlib Require Import Bool List String Arith Lia.
Import ListNotations.
Open Scope string_scope.

(** ** Data *)

(** [type PermissionState = "unknown" | "granted" | "denied"] (line 57). *)
Inductive PermissionState : Type := unknown | granted | denied.

Definition PermissionState_eqb (a b : PermissionState) : bool :=
  match a, b with
  | unknown, unknown | granted, granted | denied, denied => true
  | _, _ => false
  end.

(** React Native's [AppStateStatus], a union of string literals. *)
Module AppState.

Inductive Status : Type := active | background | inactive | unknown | extension.

Definition to_string (st : Status) : string :=
  match st with
  | active => "active"
  | background => "background"
  | inactive => "inactive"
  | unknown => "unknown"
  | extension => "extension"
  end.

Definition eqb (a b : Status) : bool := String.eqb (to_string a) (to_string b).

End AppState.

(** [hay.match(/needle/)] for a regular expression that is a plain word:
    true when [needle] occurs somewhere in [hay]. *)
Fixpoint includes (needle hay : string) : bool :=
  if String.prefix needle hay then true
  else match hay with
       | EmptyString => false
       | String _ rest => includes needle rest
       end.

(** [nextState.match(/inactive|background/)] (line 125). *)
Definition match_inactive_or_background (nextState : AppState.Status) : bool :=
  includes "inactive" (AppState.to_string nextState)
  || includes "background" (AppState.to_string nextState).

(** What expo-camera's permission calls resolve to: only [status] and
    [canAskAgain] are read by the component. *)
Module Camera.

Inductive PermissionStatus : Type := GRANTED | DENIED | UNDETERMINED.

Record PermissionResponse : Type := mkResponse {
  status : PermissionStatus;
  canAskAgain : bool
}.

(** [status === "granted"] *)
Definition is_granted (r : PermissionResponse) : bool :=
  match status r with GRANTED => true | _ => false end.

End Camera.

(** How an awaited promise settles. *)
Inductive Settled : Type :=
| fulfilled (r : Camera.PermissionResponse)
| rejected.

(** One call of [Alert.alert(title, message, buttons)]. *)
Record Alert : Type := mkAlert {
  alert_title : string;
  alert_text : string;
  alert_buttons : list string
}.

Definition alert_not_supported : Alert :=
  mkAlert "Not supported"
          "Flashlight control is only available on Android or iOS devices." [].

Definition alert_permission_needed : Alert :=
  mkAlert "Permission needed"
          "Enable camera access in system settings to use the flashlight."
          ["Cancel"; "Open settings"].

Definition alert_camera_unavailable : Alert :=
  mkAlert "Camera unavailable" "Torch control is not available." [].

Definition Alert_eqb (a b : Alert) : bool :=
  String.eqb (alert_title a) (alert_title b)
  && String.eqb (alert_text a) (alert_text b).

(** An async function suspended on an [await] (or a promise with a
    [then] attached), waiting for its promise to settle. *)
Inductive Task : Type :=
| ensure_query      (* ensurePermission at line 84 *)
| ensure_request    (* ensurePermission at line 93 *)
| foreground_query  (* the listener's promise, line 133 *)
| toggle_request (cameraAvailable' cameraReady' : bool).
                    (* toggleFlashlight at line 190, with the [cameraAvailable]
                       and [cameraReady] of the render that made the callback *)

Definition is_toggle_request (t : Task) : bool :=
  match t with toggle_request _ _ => true | _ => false end.

(** The cells of the component, the two clean-up handles of its effects,
    the suspended tasks and the alerts shown so far. *)
Record State : Type := mkState {
  permission : PermissionState;          (* line 62 *)
  cameraReady : bool;                    (* line 65 *)
  flashlightOn : bool;                   (* line 66 *)
  message : option string;               (* line 67 *)
  cameraAvailable : bool;                (* line 68 *)
  appStateRef : AppState.Status;         (* line 70 *)
  torchStateRef : bool;                  (* line 71 *)
  mounted : bool;                        (* line 80, local to the first effect *)
  subscription : bool;                   (* line 121, the listener is registered *)
  pending : list Task;
  alerts : list Alert
}.

Definition setPermission (v : PermissionState) (s : State) : State :=
  mkState v (cameraReady s) (flashlightOn s) (message s) (cameraAvailable s)
          (appStateRef s) (torchStateRef s) (mounted s) (subscription s)
          (pending s) (alerts s).

Definition setCameraReady (v : bool) (s : State) : State :=
  mkState (permission s) v (flashlightOn s) (message s) (cameraAvailable s)
          (appStateRef s) (torchStateRef s) (mounted s) (subscription s)
          (pending s) (alerts s).

Definition setFlashlightOn (v : bool) (s : State) : State :=
  mkState (permission s) (cameraReady s) v (message s) (cameraAvailable s)
          (appStateRef s) (torchStateRef s) (mounted s) (subscription s)
          (pending s) (alerts s).

Definition setMessage (v : option string) (s : State) : State :=
  mkState (permission s) (cameraReady s) (flashlightOn s) v (cameraAvailable s)
          (appStateRef s) (torchStateRef s) (mounted s) (subscription s)
          (pending s) (alerts s).

Definition setCameraAvailable (v : bool) (s : State) : State :=
  mkState (permission s) (cameraReady s) (flashlightOn s) (message s) v
          (appStateRef s) (torchStateRef s) (mounted s) (subscription s)
          (pending s) (alerts s).

Definition set_appStateRef (v : AppState.Status) (s : State) : State :=
  mkState (permission s) (cameraReady s) (flashlightOn s) (message s)
          (cameraAvailable s) v (torchStateRef s) (mounted s) (subscription s)
          (pending s) (alerts s).

Definition set_torchStateRef (v : bool) (s : State) : State :=
  mkState (permission s) (cameraReady s) (flashlightOn s) (message s)
          (cameraAvailable s) (appStateRef s) v (mounted s) (subscription s)
          (pending s) (alerts s).

Definition set_mounted (v : bool) (s : State) : State :=
  mkState (permission s) (cameraReady s) (flashlightOn s) (message s)
          (cameraAvailable s) (appStateRef s) (torchStateRef s) v (subscription s)
          (pending s) (alerts s).

Definition set_subscription (v : bool) (s : State) : State :=
  mkState (permission s) (cameraReady s) (flashlightOn s) (message s)
          (cameraAvailable s) (appStateRef s) (torchStateRef s) (mounted s) v
          (pending s) (alerts s).

Definition set_pending (v : list Task) (s : State) : State :=
  mkState (permission s) (cameraReady s) (flashlightOn s) (message s)
          (cameraAvailable s) (appStateRef s) (torchStateRef s) (mounted s)
          (subscription s) v (alerts s).

(** The task is appended: it waits until an event settles it. *)
Definition suspend (t : Task) (s : State) : State :=
  set_pending (pending s ++ [t]) s.

Definition show_alert (a : Alert) (s : State) : State :=
  mkState (permission s) (cameraReady s) (flashlightOn s) (message s)
          (cameraAvailable s) (appStateRef s) (torchStateRef s) (mounted s)
          (subscription s) (pending s) (alerts s ++ [a]).

Fixpoint remove_nth {A : Type} (i : nat) (l : list A) : list A :=
  match l, i with
  | [], _ => []
  | _ :: tl, 0 => tl
  | x :: tl, S j => x :: remove_nth j tl
  end.

(** The spec's three-valued camera readiness, read off the two flags in
    the order [toggleFlashlight] and [statusText] test them:
    [cameraAvailable] first, [cameraReady] second. *)
Inductive CameraReadiness : Type := NotReady | Ready | Errored.

Definition readiness (s : State) : CameraReadiness :=
  if negb (cameraAvailable s) then Errored
  else if cameraReady s then Ready
  else NotReady.

Definition CameraReadiness_eqb (a b : CameraReadiness) : bool :=
  match a, b with
  | NotReady, NotReady | Ready, Ready | Errored, Errored => true
  | _, _ => false
  end.

(** The events the component reacts to. *)
Inductive Event : Type :=
| CameraReady                               (* onCameraReady *)
| CameraError (error_message : option string) (* onMountError *)
| AppStateChange (nextState : AppState.Status)
| Toggle                                    (* onPress *)
| Settle (i : nat) (r : Settled).           (* the i-th suspended task resumes *)

(** Responses used in the scenarios. *)
Definition grants : Settled := fulfilled (Camera.mkResponse Camera.GRANTED true).
Definition denies : Settled := fulfilled (Camera.mkResponse Camera.DENIED false).

Section Reconciler.

(** [const isMobile = Platform.OS === "ios" || Platform.OS === "android"]
    (line 59): fixed for the life of the program. *)
Variable isMobile : bool.

(** ** Callbacks *)

(** Lines 168-171. *)
Definition handleCameraReady (s : State) : State :=
  setMessage None (setCameraReady true s).

(** Lines 173-178; [error_message] is [error?.message]. *)
Definition handleCameraError (error_message : option string) (s : State) : State :=
  setMessage
    (Some (match error_message with
           | Some m => m
           | None => "Unknown camera error."
           end))
    (setFlashlightOn false (setCameraAvailable false (setCameraReady false s))).

(** Lines 121-139, the listener given to [AppState.addEventListener]. *)
Definition onAppStateChange (nextState : AppState.Status) (s : State) : State :=
  let previous := appStateRef s in
  let s1 := set_appStateRef nextState s in
  let s2 :=
    if AppState.eqb previous AppState.active
       && match_inactive_or_background nextState
    then
      if torchStateRef s1
      then setFlashlightOn false (set_torchStateRef false s1)
      else s1
    else s1 in
  if AppState.eqb nextState AppState.active
  then suspend foreground_query s2
  else s2.

(** Lines 204-215, with the [cameraAvailable] and [cameraReady] the
    callback closed over; [setFlashlightOn] is given an updater, so the
    flag it negates is the current one. *)
Definition toggle_tail (cameraAvailable' cameraReady' : bool) (s : State) : State :=
  if negb cameraAvailable' then show_alert alert_camera_unavailable s
  else if negb cameraReady'
  then setMessage (Some "Camera is still starting. Try again in a moment.") s
  else setFlashlightOn (negb (flashlightOn s)) (setMessage None s).

(** Lines 180-216 up to the first [await]: between two events the
    callback in use is the one of the last render, so what it closed
    over is the current state. *)
Definition toggleFlashlight (s : State) : State :=
  if negb isMobile then show_alert alert_not_supported s
  else if negb (PermissionState_eqb (permission s) granted)
  then suspend (toggle_request (cameraAvailable s) (cameraReady s)) s
  else toggle_tail (cameraAvailable s) (cameraReady s) s.

(** ** Promise continuations *)

Definition permission_required : string :=
  "Camera permission is required to control the flashlight.".

(** The [catch] of [ensurePermission], lines 103-108. *)
Definition ensurePermission_catch (s : State) : State :=
  if mounted s
  then setMessage (Some "Could not read camera permission state.")
                  (setPermission denied s)
  else s.

(** [ensurePermission] after line 84. *)
Definition ensurePermission_after_query (r : Settled) (s : State) : State :=
  match r with
  | fulfilled current =>
      if negb (mounted s) then s
      else if Camera.is_granted current then setPermission granted s
      else if Camera.canAskAgain current then suspend ensure_request s
      else setMessage (Some permission_required) (setPermission denied s)
  | rejected => ensurePermission_catch s
  end.

(** [ensurePermission] after line 93. *)
Definition ensurePermission_after_request (r : Settled) (s : State) : State :=
  match r with
  | fulfilled requested =>
      if negb (mounted s) then s
      else if Camera.is_granted requested then setPermission granted s
      else setMessage (Some permission_required) (setPermission denied s)
  | rejected => ensurePermission_catch s
  end.

(** The [then] and [catch] of lines 134-137. *)
Definition foreground_query_settled (r : Settled) (s : State) : State :=
  match r with
  | fulfilled response =>
      setPermission (if Camera.is_granted response then granted else denied) s
  | rejected => s
  end.

(** [requestPermission] after line 154: the value it returns and the
    state it leaves. *)
Definition requestPermission_settled (r : Settled) (s : State) : bool * State :=
  match r with
  | fulfilled response =>
      let granted_now := Camera.is_granted response in
      let s1 := setPermission (if granted_now then granted else denied) s in
      (granted_now,
       if negb granted_now
       then setMessage (Some "Camera access is required to control the flashlight.") s1
       else s1)
  | rejected =>
      (false,
       setMessage (Some "Unable to request camera permission.")
                  (setPermission denied s))
  end.

(** [toggleFlashlight] after line 190.  [requestPermission] and the
    rest of [toggleFlashlight] resume in consecutive microtasks, no
    event comes between them. *)
Definition toggleFlashlight_after_request
           (cameraAvailable' cameraReady' : bool) (r : Settled) (s : State) : State :=
  let (grantedNow, s1) := requestPermission_settled r s in
  if negb grantedNow then show_alert alert_permission_needed s1
  else toggle_tail cameraAvailable' cameraReady' s1.

Definition resume (t : Task) (r : Settled) (s : State) : State :=
  match t with
  | ensure_query => ensurePermission_after_query r s
  | ensure_request => ensurePermission_after_request r s
  | foreground_query => foreground_query_settled r s
  | toggle_request ca cr => toggleFlashlight_after_request ca cr r s
  end.

(** ** Effects *)

(** The effects of one commit.  [prev] is the render before, [cur] the
    state just rendered.  Lines 73-75 run when [flashlightOn] differs,
    lines 146-150 when [permission] or [flashlightOn] differs; both
    read the rendered values. *)
Definition run_effects (prev cur : State) : State :=
  let flashlight_changed := negb (Bool.eqb (flashlightOn prev) (flashlightOn cur)) in
  let permission_changed :=
    negb (PermissionState_eqb (permission prev) (permission cur)) in
  let s1 :=
    if flashlight_changed then set_torchStateRef (flashlightOn cur) cur else cur in
  if (permission_changed || flashlight_changed)
     && negb (PermissionState_eqb (permission cur) granted)
     && flashlightOn cur
  then setFlashlightOn false s1
  else s1.

(** A render after an event, and the render that the [setFlashlightOn]
    of lines 146-150 asks for. *)
Definition commit (prev cur : State) : State :=
  run_effects cur (run_effects prev cur).

(** ** The component's life *)

(** The first render: the initial values of lines 62-71. *)
Definition first_render (currentState : AppState.Status) : State :=
  mkState (if isMobile then unknown else denied) false false None true
          currentState false false false [] [].

(** All effects run after the first render, in source order. *)
Definition mount_effects (s : State) : State :=
  let s1 := set_torchStateRef (flashlightOn s) s in
  let s2 := if negb isMobile then s1
            else suspend ensure_query (set_mounted true s1) in
  let s3 := if negb isMobile then s2 else set_subscription true s2 in
  if negb (PermissionState_eqb (permission s3) granted) && flashlightOn s3
  then setFlashlightOn false s3
  else s3.

Definition initialize (currentState : AppState.Status) : State :=
  mount_effects (first_render currentState).

(** The clean-ups of lines 112-114 and 141-143. *)
Definition unmount (s : State) : State :=
  if negb isMobile then s
  else set_subscription false (set_mounted false s).

Definition handle (e : Event) (s : State) : State :=
  match e with
  | CameraReady => handleCameraReady s
  | CameraError m => handleCameraError m s
  | AppStateChange nextState =>
      if subscription s then onAppStateChange nextState s else s
  | Toggle => toggleFlashlight s
  | Settle i r =>
      match nth_error (pending s) i with
      | Some t => resume t r (set_pending (remove_nth i (pending s)) s)
      | None => s
      end
  end.

(** One event, run to completion: the handler, then the renders and
    effects it causes. *)
Definition step (s : State) (e : Event) : State :=
  commit s (handle e s).

Definition run (s : State) (es : list Event) : State :=
  fold_left step es s.

(** The [disabled] prop of the button, negated (line 257). *)
Definition button_enabled (s : State) : bool :=
  negb (negb (PermissionState_eqb (permission s) granted)
        || negb (cameraAvailable s)
        || negb isMobile).

(** ** Status text *)

(** Lines 218-225. *)
Definition statusText (s : State) : string :=
  if negb isMobile then "Flashlight works only on Android/iOS devices."
  else if PermissionState_eqb (permission s) unknown
  then "Checking camera permission..."
  else if PermissionState_eqb (permission s) denied
  then "Grant camera permission."
  else if negb (cameraAvailable s) then "Camera unavailable."
  else if negb (cameraReady s) then "Starting camera session..."
  else if flashlightOn s then "Flashlight is ON." else "Flashlight is OFF.".


(** ** The spec's vocabulary *)

(** I1, I2 and I4 of the data model, on the component's cells. *)
Definition I1 (s : State) : Prop := flashlightOn s = true -> permission s = granted.
Definition I2 (s : State) : Prop := flashlightOn s = true -> readiness s = Ready.
Definition I4 (s : State) : Prop := readiness s = Errored -> flashlightOn s = false.

(** The events that run the last two statements of [toggleFlashlight]:
    a press, or the resumption of a press that was waiting for its
    permission request. *)
Definition toggle_path (s : State) (e : Event) : bool :=
  match e with
  | Toggle => true
  | Settle i _ =>
      match nth_error (pending s) i with
      | Some t => is_toggle_request t
      | None => false
      end
  | _ => false
  end.

(** A press whose permission request, if it makes one, settles with [r]
    before anything else happens: the request is the task the press
    appended. *)
Definition toggle_call (r : Settled) (s : State) : State :=
  run s [Toggle; Settle (List.length (pending s)) r].

Definition settles_granted (r : Settled) : bool :=
  match r with
  | fulfilled response => Camera.is_granted response
  | rejected => false
  end.

(** The alert a press ends with once the camera is unavailable. *)
Definition refusal_notice (r : Settled) (s : State) : Alert :=
  if negb isMobile then alert_not_supported
  else if PermissionState_eqb (permission s) granted || settles_granted r
  then alert_camera_unavailable
  else alert_permission_needed.

(** Event sequences in which the button is pressed only while it is
    enabled. *)
Fixpoint button_gated (s : State) (es : list Event) : bool :=
  match es with
  | [] => true
  | e :: es' =>
      match e with
      | Toggle => button_enabled s
      | _ => true
      end
      && button_gated (step s e) es'
  end.

(** The status text as the spec presents it: an ordered table of
    conditions on the state tuple, the first that holds gives the text. *)
Definition status_rules : list ((State -> bool) * (State -> string)) :=
  [ (fun _ => negb isMobile,
     fun _ => "Flashlight works only on Android/iOS devices.");
    (fun s => PermissionState_eqb (permission s) unknown,
     fun _ => "Checking camera permission...");
    (fun s => PermissionState_eqb (permission s) denied,
     fun _ => "Grant camera permission.");
    (fun s => CameraReadiness_eqb (readiness s) Errored,
     fun _ => "Camera unavailable.");
    (fun s => CameraReadiness_eqb (readiness s) NotReady,
     fun _ => "Starting camera session...");
    (fun _ => true,
     fun s => if flashlightOn s then "Flashlight is ON." else "Flashlight is OFF.") ].

Fixpoint first_match (rules : list ((State -> bool) * (State -> string)))
         (s : State) : option string :=
  match rules with
  | [] => None
  | (applies, text) :: rest =>
      if applies s then Some (text s) else first_match rest s
  end.

(** What holds of every state the mounted component is left in. *)
Definition consistent (s : State) : Prop :=
  torchStateRef s = flashlightOn s
  /\ I1 s
  /\ (isMobile = true -> subscription s = true)
  /\ (isMobile = false ->
      subscription s = false /\ pending s = [] /\ flashlightOn s = false).

(** What holds in addition when the button gates every press. *)
Definition settled_camera (s : State) : Prop :=
  forallb (fun t => negb (is_toggle_request t)) (pending s) = true
  /\ (flashlightOn s = true -> cameraAvailable s = true /\ cameraReady s = true).

(** ** Scenarios *)

(** Scenario A of the spec: the permission is already granted. *)
Definition scenario_A : State :=
  run (initialize AppState.active) [Settle 0 grants].

(** Scenario B: the camera is ready and the torch has been switched on. *)
Definition scenario_B : State := run scenario_A [CameraReady; Toggle].


(** The component torn down while the foreground query is in flight. *)
Definition torn_down : State :=
  unmount
    (run (initialize AppState.active)
         [AppStateChange AppState.background; AppStateChange AppState.active]).

(** The camera failed and the permission was then revoked in the settings. *)
Definition errored_then_revoked : State :=
  run scenario_A
      [ CameraError (Some "X");
        AppStateChange AppState.background; AppStateChange AppState.active;
        Settle 0 denies ].


(** The component torn down while a press waits for its permission request. *)
Definition torn_down_request : State :=
  unmount (run (initialize AppState.active) [Toggle]).

(** Scenario E followed by a fresh [onCameraReady]. *)
Definition ready_after_error : State :=
  run scenario_B [CameraError (Some "X"); CameraReady].

(** Any state the component can be in once [onMountError] has fired:
    [es0] are the events before the failure, [es] the events after it. *)
Definition after_camera_error (currentState : AppState.Status) (es0 : list Event)
           (error_message : option string) (es : list Event) : State :=
  run (step (run (initialize currentState) es0) (CameraError error_message)) es.

(** The text [toggleFlashlight] leaves while the camera session starts. *)
Definition still_starting : string :=
  "Camera is still starting. Try again in a moment.".

(** ** What is rendered *)

(** Lines 231-239: the [CameraView] is rendered only while the permission
    is granted, with [enableTorch={flashlightOn}]; [None] when it is not
    rendered. *)
Definition enableTorch (s : State) : option bool :=
  if PermissionState_eqb (permission s) granted
  then Some (flashlightOn s)
  else None.

(** Line 262, the label of the button. *)
Definition button_label (s : State) : string :=
  if flashlightOn s then "Turn flashlight off" else "Turn flashlight on".

(** The two tasks of [ensurePermission]. *)
Definition is_ensure_task (t : Task) : bool :=
  match t with ensure_query | ensure_request => true | _ => false end.

(** What holds of every state of the component off Android and iOS. *)
Definition inert (s : State) : Prop :=
  permission s = denied /\ flashlightOn s = false
  /\ pending s = [] /\ subscription s = false.

(** ** Basic facts *)

Ltac case_if :=
  match goal with
  | |- context [if ?b then _ else _] => destruct b eqn:?
  end.

Ltac destruct_state s :=
  let p := fresh "perm" in
  let cr := fresh "ready" in
  let fl := fresh "torch" in
  let m := fresh "msg" in
  let ca := fresh "avail" in
  let ar := fresh "app" in
  let tr := fresh "ref" in
  let mo := fresh "mnt" in
  let su := fresh "sub" in
  let pe := fresh "tasks" in
  let al := fresh "shown" in
  destruct s as [p cr fl m ca ar tr mo su pe al].

Lemma PermissionState_eqb_eq (a b : PermissionState) :
  PermissionState_eqb a b = true <-> a = b.
Proof. destruct a, b; simpl; split; congruence. Qed.

Lemma PermissionState_eqb_refl (a : PermissionState) :
  PermissionState_eqb a a = true.
Proof. destruct a; reflexivity. Qed.

Lemma AppState_eqb_eq (a b : AppState.Status) :
  AppState.eqb a b = true <-> a = b.
Proof. destruct a, b; split; intro H; try reflexivity; discriminate H. Qed.

(** The regular expression of line 125 accepts exactly two of the five
    lifecycle states. *)
Lemma match_inactive_or_background_iff (nextState : AppState.Status) :
  match_inactive_or_background nextState = true
  <-> nextState = AppState.background \/ nextState = AppState.inactive.
Proof.
  destruct nextState; vm_compute; split; intro H;
    try reflexivity; try discriminate H; auto;
    destruct H as [H | H]; discriminate H.
Qed.

Lemma run_snoc (s : State) (es : list Event) (e : Event) :
  run s (es ++ [e]) = step (run s es) e.
Proof. unfold run. rewrite fold_left_app. reflexivity. Qed.

Lemma run_app (s : State) (es es' : list Event) :
  run s (es ++ es') = run (run s es) es'.
Proof. unfold run. apply fold_left_app. Qed.

Lemma remove_nth_last {A : Type} (l : list A) (x : A) :
  remove_nth (List.length l) (l ++ [x]) = l.
Proof. induction l as [| y l IH]; simpl; [reflexivity | now rewrite IH]. Qed.

Lemma nth_error_last {A : Type} (l : list A) (x : A) :
  nth_error (l ++ [x]) (List.length l) = Some x.
Proof. induction l as [| y l IH]; simpl; [reflexivity | exact IH]. Qed.

(** *** Effects *)

(** The effects write [flashlightOn] and [torchStateRef] and nothing else. *)
Lemma commit_frame (prev cur : State) :
  permission (commit prev cur) = permission cur
  /\ cameraReady (commit prev cur) = cameraReady cur
  /\ message (commit prev cur) = message cur
  /\ cameraAvailable (commit prev cur) = cameraAvailable cur
  /\ appStateRef (commit prev cur) = appStateRef cur
  /\ mounted (commit prev cur) = mounted cur
  /\ subscription (commit prev cur) = subscription cur
  /\ pending (commit prev cur) = pending cur
  /\ alerts (commit prev cur) = alerts cur.
Proof.
  unfold commit, run_effects.
  repeat (case_if; simpl); repeat split; reflexivity.
Qed.

(** The effects can switch the torch off, never on. *)
Lemma commit_flashlightOn (prev cur : State) :
  flashlightOn (commit prev cur) = true -> flashlightOn cur = true.
Proof.
  unfold commit, run_effects.
  repeat (case_if; simpl); intro H; try discriminate H; assumption.
Qed.

Lemma commit_off (prev cur : State) :
  flashlightOn cur = false -> flashlightOn (commit prev cur) = false.
Proof.
  intro H. destruct (flashlightOn (commit prev cur)) eqn:E; [| reflexivity].
  apply commit_flashlightOn in E. congruence.
Qed.

(** With the permission granted the effects leave the flag alone. *)
Lemma commit_granted (prev cur : State) :
  permission cur = granted ->
  flashlightOn (commit prev cur) = flashlightOn cur.
Proof.
  unfold commit, run_effects.
  destruct_state prev. destruct_state cur. simpl. intros ->.
  destruct perm, torch, torch0; reflexivity.
Qed.

(** Nothing runs when neither dependency changed. *)
Lemma commit_same_deps (prev cur : State) :
  permission prev = permission cur ->
  flashlightOn prev = flashlightOn cur ->
  commit prev cur = cur.
Proof.
  unfold commit, run_effects.
  destruct_state prev. destruct_state cur. simpl. intros -> ->.
  destruct perm0, torch0; reflexivity.
Qed.

(** X10.  The effects settle within the two renders of a commit: a third
    render would find nothing to do. *)
Lemma commit_stable (prev cur : State) :
  run_effects (run_effects prev cur) (commit prev cur) = commit prev cur.
Proof.
  unfold commit, run_effects.
  destruct_state prev. destruct_state cur. simpl.
  destruct perm, perm0, torch, torch0; reflexivity.
Qed.

Lemma commit_I1 (prev cur : State) : I1 prev -> I1 (commit prev cur).
Proof.
  unfold I1, commit, run_effects.
  destruct_state prev. destruct_state cur. simpl.
  destruct perm, perm0, torch, torch0; simpl; intros H1 H2;
    try reflexivity; try discriminate H2; try (discriminate (H1 eq_refl)).
Qed.

Lemma commit_sync (prev cur : State) :
  (flashlightOn prev = flashlightOn cur -> torchStateRef cur = flashlightOn cur) ->
  torchStateRef (commit prev cur) = flashlightOn (commit prev cur).
Proof.
  unfold commit, run_effects.
  destruct_state prev. destruct_state cur. simpl.
  destruct perm, perm0, torch, torch0; simpl; intros H;
    try reflexivity; try (exact (H eq_refl)).
Qed.

(** *** Handlers *)

Ltac case_match :=
  match goal with
  | |- context [match ?x with _ => _ end] => is_var x; destruct x
  | |- context [match ?x with _ => _ end] => destruct x eqn:?
  end.

Ltac unfold_handlers :=
  unfold handle, handleCameraReady, handleCameraError, onAppStateChange,
    toggleFlashlight, resume, ensurePermission_after_query,
    ensurePermission_after_request, ensurePermission_catch,
    foreground_query_settled, toggleFlashlight_after_request,
    requestPermission_settled, toggle_tail, suspend, show_alert in *.

Lemma handle_subscription (e : Event) (s : State) :
  subscription (handle e s) = subscription s.
Proof. unfold_handlers. repeat (case_match; simpl); congruence. Qed.

(** No handler sets the availability flag back. *)
Lemma handle_cameraAvailable (e : Event) (s : State) :
  cameraAvailable s = false -> cameraAvailable (handle e s) = false.
Proof.
  intro H. unfold_handlers. repeat (case_match; simpl); congruence.
Qed.

Lemma step_cameraAvailable (s : State) (e : Event) :
  cameraAvailable s = false -> cameraAvailable (step s e) = false.
Proof.
  intro H. unfold step.
  destruct (commit_frame s (handle e s)) as (_ & _ & _ & -> & _).
  now apply handle_cameraAvailable.
Qed.

Lemma run_cameraAvailable (s : State) (es : list Event) :
  cameraAvailable s = false -> cameraAvailable (run s es) = false.
Proof.
  revert s. induction es as [| e es IH]; intros s H; simpl; [exact H |].
  apply IH. now apply step_cameraAvailable.
Qed.

(** A handler either leaves [torchStateRef] alone or writes it together
    with the flag. *)
Lemma handle_sync (e : Event) (s : State) :
  torchStateRef s = flashlightOn s ->
  flashlightOn s = flashlightOn (handle e s) ->
  torchStateRef (handle e s) = flashlightOn (handle e s).
Proof.
  unfold_handlers. destruct_state s. simpl. intros ->.
  repeat (case_match; simpl in *); intros H; try reflexivity; congruence.
Qed.

(** The flag goes from off to on only in the last statement of
    [toggleFlashlight]. *)
Lemma handle_turns_on (e : Event) (s : State) :
  flashlightOn s = false ->
  flashlightOn (handle e s) = true ->
  toggle_path s e = true.
Proof.
  unfold toggle_path. unfold_handlers. destruct_state s. simpl. intros ->.
  repeat (case_match; simpl in *); congruence.
Qed.

(** Without a subscription, a suspended task or a supported platform
    nothing can happen to the state but alerts. *)
Lemma handle_not_mobile (e : Event) (s : State) :
  isMobile = false -> subscription s = false -> pending s = [] ->
  pending (handle e s) = []
  /\ (flashlightOn s = false -> flashlightOn (handle e s) = false).
Proof.
  intros Hm Hs Hp. destruct e; simpl.
  - split; [exact Hp | intro H; exact H].
  - split; [exact Hp | reflexivity].
  - rewrite Hs. split; [exact Hp | intro H; exact H].
  - unfold toggleFlashlight. rewrite Hm. simpl.
    split; [exact Hp | intro H; exact H].
  - rewrite Hp. destruct i; simpl; (split; [exact Hp | intro H; exact H]).
Qed.

(** *** What every run keeps *)

Lemma initialize_consistent (currentState : AppState.Status) :
  consistent (initialize currentState).
Proof.
  unfold consistent, I1, initialize, mount_effects, first_render.
  destruct isMobile; simpl; repeat split; congruence.
Qed.

Lemma step_consistent (s : State) (e : Event) :
  consistent s -> consistent (step s e).
Proof.
  intros (Hsync & H1 & Hsub & Hnot). unfold step.
  destruct (commit_frame s (handle e s))
    as (_ & _ & _ & _ & _ & _ & Esub & Epend & _).
  repeat split.
  - apply commit_sync. now apply handle_sync.
  - now apply commit_I1.
  - intro Hm. rewrite Esub, handle_subscription. now apply Hsub.
  - rewrite Esub, handle_subscription. now apply Hnot.
  - destruct (Hnot H) as (Hs & Hp & Hf).
    rewrite Epend. now apply handle_not_mobile.
  - destruct (Hnot H) as (Hs & Hp & Hf).
    apply commit_off. now apply handle_not_mobile.
Qed.

Lemma run_consistent (s : State) (es : list Event) :
  consistent s -> consistent (run s es).
Proof.
  revert s. induction es as [| e es IH]; intros s H; simpl; [exact H |].
  apply IH. now apply step_consistent.
Qed.

(** *** Runs in which the button gates every press *)

Lemma forallb_remove_nth {A : Type} (f : A -> bool) (i : nat) (l : list A) :
  forallb f l = true -> forallb f (remove_nth i l) = true.
Proof.
  revert i. induction l as [| x l IH]; intros i H; simpl in *.
  - destruct i; reflexivity.
  - apply andb_true_iff in H. destruct H as [Hx Hl].
    destruct i; simpl; [exact Hl |].
    rewrite Hx. simpl. now apply IH.
Qed.

Lemma forallb_nth_error {A : Type} (f : A -> bool) (l : list A) (i : nat) (x : A) :
  forallb f l = true -> nth_error l i = Some x -> f x = true.
Proof.
  intros H E. rewrite forallb_forall in H. apply H.
  eapply nth_error_In. exact E.
Qed.

Lemma handle_settled (e : Event) (s : State) :
  settled_camera s ->
  (e = Toggle -> button_enabled s = true) ->
  settled_camera (handle e s).
Proof.
  unfold settled_camera, button_enabled. intros [Hp Hf] Hb.
  destruct e; simpl.
  - split; [exact Hp | intro H; destruct (Hf H); auto].
  - split; [exact Hp | discriminate].
  - unfold onAppStateChange, suspend.
    destruct_state s; simpl in *.
    repeat (case_match; simpl in * ); rewrite ?forallb_app; simpl;
      rewrite ?Hp; split; try reflexivity; try discriminate; auto.
  - specialize (Hb eq_refl). unfold toggleFlashlight, toggle_tail.
    destruct_state s; simpl in *.
    destruct isMobile, perm, avail, ready; simpl in *;
      try discriminate Hb; split; auto.
  - destruct (nth_error (pending s) i) as [t |] eqn:E; [| now split].
    pose proof (forallb_nth_error _ _ _ _ Hp E) as Ht.
    pose proof (forallb_remove_nth _ i _ Hp) as Hr.
    destruct t; simpl in Ht; try discriminate Ht;
      unfold_handlers; destruct_state s; simpl in *;
      repeat (case_match; simpl in * ); rewrite ?forallb_app; simpl;
      rewrite ?Hr; split; try reflexivity; auto.
Qed.

Lemma step_settled (s : State) (e : Event) :
  settled_camera s ->
  (e = Toggle -> button_enabled s = true) ->
  settled_camera (step s e).
Proof.
  intros Hs Hb. destruct (handle_settled e s Hs Hb) as [Hp Hf].
  unfold step, settled_camera.
  destruct (commit_frame s (handle e s))
    as (_ & -> & _ & -> & _ & _ & _ & -> & _).
  split; [exact Hp |].
  intro H. apply commit_flashlightOn in H. now apply Hf.
Qed.

Lemma initialize_settled (currentState : AppState.Status) :
  settled_camera (initialize currentState).
Proof.
  unfold settled_camera, initialize, mount_effects, first_render.
  destruct isMobile; simpl; split; try reflexivity; discriminate.
Qed.

Lemma settled_I2 (s : State) : settled_camera s -> I2 s.
Proof.
  intros [_ Hf] H. destruct (Hf H) as [Ha Hr].
  unfold readiness. now rewrite Ha, Hr.
Qed.

Lemma I2_I4 (s : State) : I2 s -> I4 s.
Proof.
  intros H2 He. destruct (flashlightOn s) eqn:E; [| reflexivity].
  rewrite (H2 E) in He. discriminate He.
Qed.

(** *** A press once the camera is unavailable *)

Lemma nth_error_length {A : Type} (l : list A) :
  nth_error l (List.length l) = None.
Proof. apply nth_error_None. apply Nat.le_refl. Qed.

Lemma step_toggle_without_camera (t : State) :
  cameraAvailable t = false ->
  step t Toggle =
  if negb isMobile then show_alert alert_not_supported t
  else if negb (PermissionState_eqb (permission t) granted)
  then suspend (toggle_request false (cameraReady t)) t
  else show_alert alert_camera_unavailable t.
Proof.
  intro Ha. unfold step. simpl. unfold toggleFlashlight, toggle_tail.
  rewrite Ha. simpl.
  destruct (negb isMobile); [apply commit_same_deps; reflexivity |].
  destruct (negb _); apply commit_same_deps; reflexivity.
Qed.

Lemma step_settle_out_of_range (s : State) (r : Settled) (i : nat) :
  nth_error (pending s) i = None -> step s (Settle i r) = s.
Proof.
  intro H. unfold step. simpl. rewrite H.
  apply commit_same_deps; reflexivity.
Qed.

(** The press changes nothing but the alerts, the permission and the
    message, and ends with one alert. *)
Lemma toggle_call_without_camera (r : Settled) (t : State) :
  I1 t -> cameraAvailable t = false ->
  flashlightOn (toggle_call r t) = flashlightOn t
  /\ alerts (toggle_call r t) = (alerts t ++ [refusal_notice r t])%list.
Proof.
  intros H1 Ha. unfold toggle_call, run, fold_left, refusal_notice.
  rewrite (step_toggle_without_camera t Ha).
  destruct (negb isMobile).
  { rewrite step_settle_out_of_range by apply nth_error_length. now split. }
  destruct (PermissionState_eqb (permission t) granted) eqn:Ep; simpl.
  { rewrite step_settle_out_of_range by apply nth_error_length. now split. }
  assert (Hoff : flashlightOn t = false).
  { destruct (flashlightOn t) eqn:E; [| reflexivity].
    rewrite (H1 E) in Ep. discriminate Ep. }
  unfold step. simpl. unfold suspend. simpl.
  rewrite nth_error_last, remove_nth_last.
  match goal with
  | |- context [commit ?p ?c] =>
      destruct (commit_frame p c) as (_ & _ & _ & _ & _ & _ & _ & _ & ->);
      rewrite (commit_off p c)
  end.
  - rewrite Hoff. split; [reflexivity |].
    destruct r as [response |]; simpl; [| reflexivity].
    unfold toggleFlashlight_after_request, requestPermission_settled, toggle_tail.
    destruct (Camera.is_granted response); reflexivity.
  - destruct r as [response |]; simpl.
    + unfold toggleFlashlight_after_request, requestPermission_settled, toggle_tail.
      destruct (Camera.is_granted response); simpl; exact Hoff.
    + exact Hoff.
Qed.

(** *** Presses that run to the end at once *)

Lemma readiness_Ready (s : State) :
  readiness s = Ready <-> cameraAvailable s = true /\ cameraReady s = true.
Proof.
  unfold readiness. destruct (cameraAvailable s), (cameraReady s); simpl;
    split; intro H; try discriminate H; auto; destruct H; discriminate.
Qed.

Lemma readiness_NotReady (s : State) :
  readiness s = NotReady <-> cameraAvailable s = true /\ cameraReady s = false.
Proof.
  unfold readiness. destruct (cameraAvailable s), (cameraReady s); simpl;
    split; intro H; try discriminate H; auto; destruct H; discriminate.
Qed.

Lemma readiness_Errored (s : State) :
  readiness s = Errored <-> cameraAvailable s = false.
Proof.
  unfold readiness. destruct (cameraAvailable s), (cameraReady s); simpl;
    split; intro H; try discriminate H; auto.
Qed.

(** With everything in place the press flips the flag, and the effect of
    lines 73-75 copies it into the ref. *)
Lemma step_toggle_ready (s : State) :
  isMobile = true -> permission s = granted -> readiness s = Ready ->
  step s Toggle =
  set_torchStateRef (negb (flashlightOn s))
    (setFlashlightOn (negb (flashlightOn s)) (setMessage None s)).
Proof.
  intros Hm Hp Hr. apply readiness_Ready in Hr. destruct Hr as [Ha Hc].
  unfold step, handle, toggleFlashlight, toggle_tail, commit, run_effects.
  rewrite Hm. destruct_state s. simpl in *. subst.
  destruct torch; reflexivity.
Qed.

Lemma step_toggle_starting (s : State) :
  isMobile = true -> permission s = granted -> readiness s = NotReady ->
  step s Toggle = setMessage (Some still_starting) s.
Proof.
  intros Hm Hp Hr. apply readiness_NotReady in Hr. destruct Hr as [Ha Hc].
  unfold step, handle, toggleFlashlight, toggle_tail.
  rewrite Hm, Hp, Ha, Hc. simpl.
  apply commit_same_deps; reflexivity.
Qed.

Lemma step_turns_on (s : State) (e : Event) :
  flashlightOn s = false -> flashlightOn (step s e) = true ->
  toggle_path s e = true.
Proof.
  intros Hoff Hon. unfold step in Hon. apply commit_flashlightOn in Hon.
  now apply handle_turns_on.
Qed.

Lemma button_gated_app (s : State) (es es' : list Event) :
  button_gated s (es ++ es') = true ->
  button_gated s es = true /\ button_gated (run s es) es' = true.
Proof.
  revert s. induction es as [| e es IH]; intros s H; simpl in *.
  - now split.
  - apply andb_true_iff in H. destruct H as [He H].
    destruct (IH _ H) as [H1 H2]. rewrite He, H1. now split.
Qed.

Lemma run_settled (s : State) (es : list Event) :
  settled_camera s -> button_gated s es = true -> settled_camera (run s es).
Proof.
  revert s. induction es as [| e es IH]; intros s Hs Hg; simpl in *; [exact Hs |].
  apply andb_true_iff in Hg. destruct Hg as [He Hg].
  apply IH; [| exact Hg].
  apply step_settled; [exact Hs |]. intros ->. exact He.
Qed.

Lemma step_camera_error (s : State) (error_message : option string) :
  flashlightOn (step s (CameraError error_message)) = false
  /\ cameraAvailable (step s (CameraError error_message)) = false
  /\ cameraReady (step s (CameraError error_message)) = false.
Proof.
  unfold step.
  destruct (commit_frame s (handle (CameraError error_message) s))
    as (_ & -> & _ & -> & _).
  split; [apply commit_off |]; split; reflexivity.
Qed.

Lemma after_camera_error_facts (currentState : AppState.Status)
      (es0 : list Event) (error_message : option string) (es : list Event) :
  consistent (after_camera_error currentState es0 error_message es)
  /\ cameraAvailable (after_camera_error currentState es0 error_message es) = false.
Proof.
  unfold after_camera_error. split.
  - apply run_consistent, step_consistent, run_consistent, initialize_consistent.
  - apply run_cameraAvailable. apply step_camera_error.
Qed.

Lemma handle_leaving_active (s : State) (nextState : AppState.Status) :
  consistent s ->
  appStateRef s = AppState.active ->
  match_inactive_or_background nextState = true ->
  flashlightOn (handle (AppStateChange nextState) s) = false
  /\ torchStateRef (handle (AppStateChange nextState) s) = false.
Proof.
  intros (Hsync & _ & Hsub & Hnot) Hprev Hnext.
  apply match_inactive_or_background_iff in Hnext.
  destruct isMobile.
  - simpl. rewrite (Hsub eq_refl). unfold onAppStateChange, suspend.
    destruct_state s. simpl in *. subst.
    destruct Hnext as [-> | ->]; destruct torch; split; reflexivity.
  - destruct (Hnot eq_refl) as (Hs & _ & Hoff).
    simpl. rewrite Hs. rewrite Hsync. now split.
Qed.

Lemma repeat_toggle_starting (n : nat) (s : State) :
  isMobile = true -> permission s = granted -> readiness s = NotReady ->
  run s (repeat Toggle (S n)) = setMessage (Some still_starting) s.
Proof.
  revert s. induction n as [| n IH]; intros s Hm Hp Hr.
  - simpl. now apply step_toggle_starting.
  - change (run s (repeat Toggle (S (S n))))
      with (run (step s Toggle) (repeat Toggle (S n))).
    rewrite (step_toggle_starting s Hm Hp Hr).
    rewrite IH; [reflexivity | exact Hm | exact Hp | exact Hr].
Qed.

(** ** The claims *)

(** X26.  After every event of every event sequence the torch is on
    only if the permission is granted (I1).  In every sequence in which
    the button is pressed only while it is enabled, after every event the
    torch is on only if the camera is ready (I2), and off if the camera
    has failed (I4). *)
Theorem invariants_after_every_event
        (currentState : AppState.Status) (es es' : list Event) :
  I1 (run (initialize currentState) es)
  /\ (button_gated (initialize currentState) (es ++ es') = true ->
      I2 (run (initialize currentState) es)
      /\ I4 (run (initialize currentState) es)).
Proof.
  split.
  - destruct (run_consistent _ es (initialize_consistent currentState))
      as (_ & H1 & _).
    exact H1.
  - intro Hg. apply button_gated_app in Hg. destruct Hg as [Hg _].
    pose proof (run_settled _ es (initialize_settled currentState) Hg) as Hs.
    split; [| apply I2_I4]; now apply settled_I2.
Qed.

(** C2 (amended).  When [onMountError] fires while the torch is on, the
    torch is switched off and the camera is Errored; from then on, whatever
    events follow (a fresh [onCameraReady] included), the camera stays
    Errored and no press changes the torch flag. *)
Theorem camera_error_rejects_every_later_toggle
        (currentState : AppState.Status) (es0 : list Event)
        (error_message : option string) :
  flashlightOn (run (initialize currentState) es0) = true ->
  flashlightOn (after_camera_error currentState es0 error_message []) = false
  /\ readiness (after_camera_error currentState es0 error_message []) = Errored
  /\ forall (es : list Event) (r : Settled),
      readiness (after_camera_error currentState es0 error_message es) = Errored
      /\ flashlightOn
           (toggle_call r (after_camera_error currentState es0 error_message es))
         = flashlightOn (after_camera_error currentState es0 error_message es).
Proof.
  intros _. split; [| split].
  - apply step_camera_error.
  - apply readiness_Errored. apply step_camera_error.
  - intros es r.
    destruct (after_camera_error_facts currentState es0 error_message es)
      as [(_ & H1 & _) Ha].
    split; [now apply readiness_Errored |].
    now apply toggle_call_without_camera.
Qed.

(** C4.  When the app leaves the foreground (the previous lifecycle state
    is active and the next one matches background or inactive), the
    listener itself leaves the torch flag and its ref off, before any
    render or effect runs, and the flag is off once the event is processed. *)
Theorem leaving_foreground_switches_torch_off
        (currentState : AppState.Status) (es : list Event)
        (nextState : AppState.Status) :
  appStateRef (run (initialize currentState) es) = AppState.active ->
  match_inactive_or_background nextState = true ->
  flashlightOn
    (handle (AppStateChange nextState) (run (initialize currentState) es)) = false
  /\ torchStateRef
    (handle (AppStateChange nextState) (run (initialize currentState) es)) = false
  /\ flashlightOn
    (step (run (initialize currentState) es) (AppStateChange nextState)) = false.
Proof.
  intros Hprev Hnext.
  pose proof (run_consistent _ es (initialize_consistent currentState)) as Hc.
  destruct (handle_leaving_active _ nextState Hc Hprev Hnext) as [Hoff Href].
  repeat split; try assumption.
  unfold step. now apply commit_off.
Qed.

(** C5.  On a supported platform, with the permission granted and the
    camera ready, a press flips the torch flag and clears the message.
    The flag starts off, and an event that finds it off leaves it on only
    if it runs the end of [toggleFlashlight]. *)
Theorem toggle_flips_and_only_toggle_switches_on (s : State) :
  isMobile = true -> permission s = granted -> readiness s = Ready ->
  flashlightOn (step s Toggle) = negb (flashlightOn s)
  /\ message (step s Toggle) = None
  /\ (forall currentState, flashlightOn (initialize currentState) = false)
  /\ (forall (s' : State) (e : Event),
        flashlightOn s' = false -> flashlightOn (step s' e) = true ->
        toggle_path s' e = true).
Proof.
  intros Hm Hp Hr. rewrite (step_toggle_ready s Hm Hp Hr).
  split; [reflexivity |]. split; [reflexivity |]. split.
  - intro currentState. unfold initialize, mount_effects, first_render.
    destruct isMobile; reflexivity.
  - apply step_turns_on.
Qed.

(** C6.  From a state with the permission granted and the camera ready on
    a supported platform, two presses in a row bring the torch flag back
    to its value and leave the message null. *)
Theorem toggle_twice_restores_flag (s : State) :
  isMobile = true -> permission s = granted -> readiness s = Ready ->
  flashlightOn (run s [Toggle; Toggle]) = flashlightOn s
  /\ message (run s [Toggle; Toggle]) = None.
Proof.
  intros Hm Hp Hr. simpl. rewrite (step_toggle_ready s Hm Hp Hr).
  rewrite step_toggle_ready; simpl; try assumption.
  split; [apply negb_involutive | reflexivity].
Qed.

(** C7.  While the camera is still starting (permission granted, camera
    available, supported platform), any number of presses leaves the
    torch flag as it was; one press or more leave exactly the state
    before them with the still-starting message set. *)
Theorem toggle_while_starting_changes_message_only (s : State) (n : nat) :
  isMobile = true -> permission s = granted -> readiness s = NotReady ->
  flashlightOn (run s (repeat Toggle n)) = flashlightOn s
  /\ run s (repeat Toggle (S n)) = setMessage (Some still_starting) s.
Proof.
  intros Hm Hp Hr. split.
  - destruct n as [| n]; [reflexivity |].
    now rewrite (repeat_toggle_starting n s Hm Hp Hr).
  - now apply repeat_toggle_starting.
Qed.

(** C8.  The status text is the text of the first rule that applies, the
    rules taken in the order: unsupported platform, unknown permission,
    denied permission, camera failed, camera starting, otherwise ON or
    OFF after the torch flag. *)
Theorem statusText_is_first_match (s : State) :
  first_match status_rules s = Some (statusText s).
Proof.
  unfold first_match, status_rules, statusText, readiness.
  destruct isMobile, (permission s), (cameraAvailable s), (cameraReady s);
    reflexivity.
Qed.

(** C9.  With the listener registered, a lifecycle change to active
    suspends exactly one permission query and no request.  When that query
    is fulfilled the permission becomes granted or denied after its
    status, nothing is asked again and the message is kept; when it is
    rejected every cell is as before. *)
Theorem foreground_requery (s u : State) (i : nat)
        (response : Camera.PermissionResponse) :
  subscription s = true ->
  nth_error (pending u) i = Some foreground_query ->
  pending (step s (AppStateChange AppState.active))
  = (pending s ++ [foreground_query])%list
  /\ permission (step u (Settle i (fulfilled response)))
     = (if Camera.is_granted response then granted else denied)
  /\ pending (step u (Settle i (fulfilled response))) = remove_nth i (pending u)
  /\ message (step u (Settle i (fulfilled response))) = message u
  /\ alerts (step u (Settle i (fulfilled response))) = alerts u
  /\ step u (Settle i rejected) = set_pending (remove_nth i (pending u)) u.
Proof.
  intros Hs Hu. unfold step.
  repeat match goal with
  | |- context [commit ?p (handle (Settle i (fulfilled response)) u)] =>
      destruct (commit_frame p (handle (Settle i (fulfilled response)) u))
        as (-> & _ & -> & _ & _ & _ & _ & -> & ->)
  | |- context [commit ?p (handle (AppStateChange AppState.active) s)] =>
      destruct (commit_frame p (handle (AppStateChange AppState.active) s))
        as (_ & _ & _ & _ & _ & _ & _ & -> & _)
  end.
  simpl. rewrite Hs, Hu. simpl.
  repeat split.
  - unfold onAppStateChange, suspend. simpl.
    destruct (_ && _); [destruct (torchStateRef s) |]; reflexivity.
  - apply commit_same_deps; reflexivity.
Qed.

(** C10 (amended).  Once [onMountError] has fired, whatever events follow,
    the availability flag stays false, a press never changes the torch
    flag, and it ends with one alert: Camera unavailable when the
    permission is granted or the press obtains it, Permission needed when
    it is not, Not supported off Android and iOS. *)
Theorem unavailable_camera_refuses_every_press
        (currentState : AppState.Status) (es0 : list Event)
        (error_message : option string) (es : list Event) (r : Settled) :
  cameraAvailable (after_camera_error currentState es0 error_message es) = false
  /\ cameraAvailable
       (step (after_camera_error currentState es0 error_message es) CameraReady)
     = false
  /\ flashlightOn
       (toggle_call r (after_camera_error currentState es0 error_message es))
     = flashlightOn (after_camera_error currentState es0 error_message es)
  /\ alerts (toggle_call r (after_camera_error currentState es0 error_message es))
     = (alerts (after_camera_error currentState es0 error_message es)
        ++ [refusal_notice r
              (after_camera_error currentState es0 error_message es)])%list.
Proof.
  destruct (after_camera_error_facts currentState es0 error_message es)
    as [(_ & H1 & _) Ha].
  split; [exact Ha |].
  split; [now apply step_cameraAvailable |].
  now apply toggle_call_without_camera.
Qed.

(** ** Further properties of the component *)

(** X1.  After every event the ref the lifecycle listener reads holds
    the value of the torch flag: the effect of lines 73-75 copies every
    change, and the listener writes both together. *)
Theorem torch_ref_mirrors_flag (currentState : AppState.Status) (es : list Event) :
  torchStateRef (run (initialize currentState) es)
  = flashlightOn (run (initialize currentState) es).
Proof.
  destruct (run_consistent _ es (initialize_consistent currentState)) as (H & _).
  exact H.
Qed.

(** X2.  While the component is mounted, a settled step of
    [ensurePermission] has one of three outcomes: the permission is
    granted and the message untouched; the permission is denied and a
    message says why; or, only after a fulfilled query that may ask again,
    the request is suspended and the permission is still as it was.  A
    settled request never suspends anything. *)
Theorem ensurePermission_outcomes (s : State) (i : nat) (t : Task) (r : Settled) :
  mounted s = true ->
  nth_error (pending s) i = Some t ->
  is_ensure_task t = true ->
  (permission (step s (Settle i r)) = granted
   /\ message (step s (Settle i r)) = message s
   /\ pending (step s (Settle i r)) = remove_nth i (pending s))
  \/ (permission (step s (Settle i r)) = denied
      /\ message (step s (Settle i r)) <> None
      /\ pending (step s (Settle i r)) = remove_nth i (pending s))
  \/ (t = ensure_query
      /\ (exists current, r = fulfilled current
                          /\ Camera.is_granted current = false
                          /\ Camera.canAskAgain current = true)
      /\ permission (step s (Settle i r)) = permission s
      /\ message (step s (Settle i r)) = message s
      /\ pending (step s (Settle i r))
         = (remove_nth i (pending s) ++ [ensure_request])%list).
Proof.
  intros Hm Hi Ht. unfold step.
  destruct (commit_frame s (handle (Settle i r) s))
    as (-> & _ & -> & _ & _ & _ & _ & -> & _).
  simpl. rewrite Hi.
  destruct t; try discriminate Ht; simpl;
    unfold ensurePermission_after_query, ensurePermission_after_request,
      ensurePermission_catch, suspend; simpl; rewrite Hm; simpl;
    destruct r as [current |]; simpl.
  - destruct (Camera.is_granted current) eqn:Eg; simpl; [left; auto |].
    destruct (Camera.canAskAgain current) eqn:Ea; simpl.
    + right; right. repeat split. exists current. auto.
    + right; left. repeat split. discriminate.
  - right; left. repeat split. discriminate.
  - destruct (Camera.is_granted current) eqn:Eg; simpl; [left; auto |].
    right; left. repeat split. discriminate.
  - right; left. repeat split. discriminate.
Qed.

(** X3.  Once the clean-up of lines 112-114 has run, a step of
    [ensurePermission] that settles, however it settles, leaves every
    cell as it was. *)
Theorem ensurePermission_guarded (s : State) (i : nat) (t : Task) (r : Settled) :
  mounted s = false ->
  nth_error (pending s) i = Some t ->
  is_ensure_task t = true ->
  step s (Settle i r) = set_pending (remove_nth i (pending s)) s.
Proof.
  intros Hm Hi Ht. unfold step. simpl. rewrite Hi.
  destruct t; try discriminate Ht; simpl;
    unfold ensurePermission_after_query, ensurePermission_after_request,
      ensurePermission_catch; simpl; rewrite Hm; simpl;
    destruct r; apply commit_same_deps; reflexivity.
Qed.

(** X4.  [requestPermission] returns true exactly when it leaves the
    permission granted; when it returns false the permission is denied and
    a message is set; it never leaves the permission unknown and writes no
    other cell. *)
Theorem requestPermission_result (r : Settled) (s : State) :
  (fst (requestPermission_settled r s) = true
   <-> permission (snd (requestPermission_settled r s)) = granted)
  /\ (fst (requestPermission_settled r s) = false ->
      permission (snd (requestPermission_settled r s)) = denied
      /\ message (snd (requestPermission_settled r s)) <> None)
  /\ (fst (requestPermission_settled r s) = true ->
      message (snd (requestPermission_settled r s)) = message s)
  /\ flashlightOn (snd (requestPermission_settled r s)) = flashlightOn s
  /\ cameraReady (snd (requestPermission_settled r s)) = cameraReady s
  /\ cameraAvailable (snd (requestPermission_settled r s)) = cameraAvailable s.
Proof.
  unfold requestPermission_settled.
  destruct r as [response |]; [destruct (Camera.is_granted response) |];
    simpl; repeat split; intros; try discriminate; try reflexivity.
Qed.

Lemma initialize_inert (currentState : AppState.Status) :
  isMobile = false -> inert (initialize currentState).
Proof.
  intro Hm. unfold inert, initialize, mount_effects, first_render.
  rewrite Hm. simpl. repeat split.
Qed.

Lemma step_inert (s : State) (e : Event) :
  isMobile = false -> inert s -> inert (step s e).
Proof.
  intros Hm (Hp & Hf & Hq & Hs). unfold inert, step.
  destruct (commit_frame s (handle e s))
    as (-> & _ & _ & _ & _ & _ & -> & -> & _).
  rewrite handle_subscription.
  destruct (handle_not_mobile e s Hm Hs Hq) as [Hq' Hf'].
  repeat split; try assumption.
  - destruct e; simpl; try assumption.
    + now rewrite Hs.
    + unfold toggleFlashlight. now rewrite Hm.
    + rewrite Hq. now destruct i.
  - apply commit_off. now apply Hf'.
Qed.

Lemma run_inert (s : State) (es : list Event) :
  isMobile = false -> inert s -> inert (run s es).
Proof.
  intro Hm. revert s. induction es as [| e es IH]; intros s H; simpl; [exact H |].
  apply IH. now apply step_inert.
Qed.

(** X5.  Off Android and iOS, whatever events arrive, the permission
    stays denied, the torch flag stays off, no promise is ever awaited,
    the button stays disabled and the status text is the unsupported
    platform one. *)
Theorem unsupported_platform_is_inert
        (currentState : AppState.Status) (es : list Event) :
  isMobile = false ->
  permission (run (initialize currentState) es) = denied
  /\ flashlightOn (run (initialize currentState) es) = false
  /\ pending (run (initialize currentState) es) = []
  /\ enableTorch (run (initialize currentState) es) = None
  /\ button_enabled (run (initialize currentState) es) = false
  /\ statusText (run (initialize currentState) es)
     = "Flashlight works only on Android/iOS devices.".
Proof.
  intro Hm.
  destruct (run_inert _ es Hm (initialize_inert currentState Hm))
    as (Hp & Hf & Hq & _).
  unfold enableTorch, button_enabled, statusText. rewrite Hm, Hp.
  repeat split; assumption.
Qed.

(** X6.  Off Android and iOS, [n] presses show [n] Not supported alerts
    and change nothing else. *)
Theorem unsupported_platform_presses (s : State) (n : nat) :
  isMobile = false ->
  run s (repeat Toggle n)
  = mkState (permission s) (cameraReady s) (flashlightOn s) (message s)
            (cameraAvailable s) (appStateRef s) (torchStateRef s) (mounted s)
            (subscription s) (pending s)
            (alerts s ++ repeat alert_not_supported n).
Proof.
  intro Hm. revert s. induction n as [| n IH]; intro s.
  - simpl. rewrite app_nil_r. now destruct s.
  - simpl. rewrite IH. unfold step. simpl. unfold toggleFlashlight.
    rewrite Hm. simpl. rewrite commit_same_deps by reflexivity.
    unfold show_alert. simpl. rewrite <- app_assoc. reflexivity.
Qed.

(** X7.  A camera that fails to mount, in any state and whatever the
    error carries, leaves the torch off (flag, ref after the effects, and
    the prop given to the camera view), a message that is not null, and
    the button disabled; with the permission granted on a supported
    platform the status text reads Camera unavailable. *)
Theorem camera_error_outcome (s : State) (error_message : option string) :
  flashlightOn (step s (CameraError error_message)) = false
  /\ enableTorch (step s (CameraError error_message)) <> Some true
  /\ message (step s (CameraError error_message)) <> None
  /\ button_enabled (step s (CameraError error_message)) = false
  /\ permission (step s (CameraError error_message)) = permission s
  /\ pending (step s (CameraError error_message)) = pending s
  /\ alerts (step s (CameraError error_message)) = alerts s
  /\ (isMobile = true -> permission s = granted ->
      statusText (step s (CameraError error_message)) = "Camera unavailable.").
Proof.
  destruct (step_camera_error s error_message) as (Hf & Ha & Hr).
  unfold enableTorch, button_enabled, statusText.
  rewrite Hf, Ha.
  unfold step in *.
  destruct (commit_frame s (handle (CameraError error_message) s))
    as (-> & _ & -> & _ & _ & _ & _ & -> & ->).
  simpl. repeat split.
  - destruct (PermissionState_eqb (permission s) granted); discriminate.
  - discriminate.
  - destruct (PermissionState_eqb (permission s) granted); reflexivity.
  - intros -> ->. reflexivity.
Qed.

(** X8.  [onCameraReady] is idempotent, and it leaves the torch flag, the
    permission, the availability flag, the suspended tasks and the alerts
    as they were. *)
Theorem camera_ready_idempotent (s : State) :
  step (step s CameraReady) CameraReady = step s CameraReady
  /\ flashlightOn (step s CameraReady) = flashlightOn s
  /\ permission (step s CameraReady) = permission s
  /\ cameraAvailable (step s CameraReady) = cameraAvailable s
  /\ pending (step s CameraReady) = pending s
  /\ alerts (step s CameraReady) = alerts s.
Proof.
  assert (E : forall u, step u CameraReady = setMessage None (setCameraReady true u)).
  { intro u. unfold step. simpl. apply commit_same_deps; reflexivity. }
  rewrite !E. repeat split.
Qed.

(** X9.  After the clean-up of lines 141-143 no lifecycle change reaches
    the component: any number of them leaves the state as the unmount
    left it. *)
Theorem unmount_silences_lifecycle
        (currentState : AppState.Status) (es : list Event)
        (changes : list AppState.Status) :
  run (unmount (run (initialize currentState) es)) (map AppStateChange changes)
  = unmount (run (initialize currentState) es).
Proof.
  assert (Hs : subscription (unmount (run (initialize currentState) es)) = false).
  { destruct (run_consistent _ es (initialize_consistent currentState))
      as (_ & _ & _ & Hnot).
    unfold unmount. destruct isMobile; simpl; [reflexivity |].
    now destruct (Hnot eq_refl). }
  induction changes as [| next changes IH]; simpl; [reflexivity |].
  assert (E : step (unmount (run (initialize currentState) es))
                   (AppStateChange next)
              = unmount (run (initialize currentState) es)).
  { unfold step. simpl. rewrite Hs. apply commit_same_deps; reflexivity. }
  rewrite E. exact IH.
Qed.

(** X11.  With the listener registered, a lifecycle change records the
    next state and writes neither the permission, the camera flags, the
    message nor the alerts; it never switches the torch on; and unless it
    leaves the foreground (previous state active, next state matching
    inactive or background) it leaves the torch flag and its ref alone. *)
Theorem lifecycle_listener_frame (s : State) (nextState : AppState.Status) :
  subscription s = true ->
  appStateRef (step s (AppStateChange nextState)) = nextState
  /\ permission (step s (AppStateChange nextState)) = permission s
  /\ cameraReady (step s (AppStateChange nextState)) = cameraReady s
  /\ cameraAvailable (step s (AppStateChange nextState)) = cameraAvailable s
  /\ message (step s (AppStateChange nextState)) = message s
  /\ alerts (step s (AppStateChange nextState)) = alerts s
  /\ (flashlightOn (step s (AppStateChange nextState)) = true ->
      flashlightOn s = true)
  /\ (AppState.eqb (appStateRef s) AppState.active
      && match_inactive_or_background nextState = false ->
      flashlightOn (step s (AppStateChange nextState)) = flashlightOn s
      /\ torchStateRef (step s (AppStateChange nextState)) = torchStateRef s).
Proof.
  intro Hs.
  assert (Hh : handle (AppStateChange nextState) s = onAppStateChange nextState s).
  { simpl. now rewrite Hs. }
  unfold step.
  destruct (commit_frame s (handle (AppStateChange nextState) s))
    as (-> & -> & -> & -> & -> & _ & _ & _ & ->).
  rewrite Hh.
  split; [| split; [| split; [| split; [| split; [| split; [| split]]]]]].
  - unfold onAppStateChange, suspend. repeat (case_if; simpl); reflexivity.
  - unfold onAppStateChange, suspend. repeat (case_if; simpl); reflexivity.
  - unfold onAppStateChange, suspend. repeat (case_if; simpl); reflexivity.
  - unfold onAppStateChange, suspend. repeat (case_if; simpl); reflexivity.
  - unfold onAppStateChange, suspend. repeat (case_if; simpl); reflexivity.
  - unfold onAppStateChange, suspend. repeat (case_if; simpl); reflexivity.
  - intro H. apply commit_flashlightOn in H. revert H.
    unfold onAppStateChange, suspend.
    repeat (case_if; simpl); intro H; try discriminate H; exact H.
  - intro Hedge. rewrite commit_same_deps.
    + unfold onAppStateChange, suspend. rewrite Hedge.
      case_if; simpl; split; reflexivity.
    + unfold onAppStateChange, suspend. rewrite Hedge.
      case_if; reflexivity.
    + unfold onAppStateChange, suspend. rewrite Hedge.
      case_if; reflexivity.
Qed.

(** X12.  A press on the enabled button runs to its end at once: it
    awaits nothing, shows no alert and leaves the permission alone; the
    message is cleared when the camera is ready and is the still-starting
    text when it is not. *)
Theorem enabled_press_is_synchronous (s : State) :
  button_enabled s = true ->
  pending (step s Toggle) = pending s
  /\ alerts (step s Toggle) = alerts s
  /\ permission (step s Toggle) = granted
  /\ message (step s Toggle)
     = (if cameraReady s then None else Some still_starting).
Proof.
  unfold button_enabled. intro Hb.
  destruct isMobile eqn:Hm;
    [| rewrite !orb_true_r in Hb; discriminate Hb].
  destruct (PermissionState_eqb (permission s) granted) eqn:Hp;
    [| discriminate Hb].
  destruct (cameraAvailable s) eqn:Ha; [| discriminate Hb].
  apply PermissionState_eqb_eq in Hp.
  destruct (cameraReady s) eqn:Hr.
  - rewrite step_toggle_ready; try assumption.
    + simpl. repeat split. exact Hp.
    + apply readiness_Ready. now split.
  - rewrite step_toggle_starting; try assumption.
    + simpl. repeat split. exact Hp.
    + apply readiness_NotReady. now split.
Qed.

(** X13.  After every event of every event sequence, the camera view is
    rendered with its torch enabled exactly when the torch flag is on: the
    flag is never on while the view is not rendered. *)
Theorem enableTorch_follows_flag (currentState : AppState.Status) (es : list Event) :
  enableTorch (run (initialize currentState) es) = Some true
  <-> flashlightOn (run (initialize currentState) es) = true.
Proof.
  destruct (run_consistent _ es (initialize_consistent currentState))
    as (_ & H1 & _).
  unfold enableTorch. unfold I1 in H1.
  destruct (flashlightOn (run (initialize currentState) es)).
  - rewrite (H1 eq_refl). simpl. split; reflexivity.
  - destruct (PermissionState_eqb _ granted); split; intro H; discriminate H.
Qed.

(** X14.  In every run in which the button gates each press, the status
    text reads ON exactly when the torch flag is on, and the button then
    offers to switch it off. *)
Theorem status_text_shows_torch (currentState : AppState.Status) (es : list Event) :
  button_gated (initialize currentState) es = true ->
  (flashlightOn (run (initialize currentState) es) = true
   <-> statusText (run (initialize currentState) es) = "Flashlight is ON.")
  /\ (statusText (run (initialize currentState) es) = "Flashlight is ON." ->
      button_label (run (initialize currentState) es) = "Turn flashlight off").
Proof.
  intro Hg.
  destruct (run_consistent _ es (initialize_consistent currentState))
    as (_ & H1 & _ & Hnot).
  destruct (run_settled _ es (initialize_settled currentState) Hg) as [_ Hcam].
  unfold I1 in H1. unfold statusText, button_label.
  destruct (flashlightOn (run (initialize currentState) es)) eqn:Hf.
  - destruct (Hcam eq_refl) as [Ha Hr]. rewrite (H1 eq_refl), Ha, Hr.
    destruct isMobile.
    + simpl. repeat split.
    + destruct (Hnot eq_refl) as (_ & _ & Hoff). discriminate Hoff.
  - split.
    + split; [intro H; discriminate H |].
      repeat (case_if; simpl); intro H; discriminate H.
    + repeat (case_if; simpl); intro H; discriminate H.
Qed.

Lemma step_toggle_suspends (s : State) :
  isMobile = true -> permission s <> granted ->
  step s Toggle = suspend (toggle_request (cameraAvailable s) (cameraReady s)) s.
Proof.
  intros Hm Hp. unfold step. simpl. unfold toggleFlashlight. rewrite Hm. simpl.
  destruct (PermissionState_eqb (permission s) granted) eqn:E.
  - apply PermissionState_eqb_eq in E. contradiction.
  - simpl. apply commit_same_deps; reflexivity.
Qed.

(** X15.  On a supported platform, a press made without the permission
    whose request is then refused or fails leaves the permission denied
    and the torch off, sets a message, shows the Permission needed alert
    with its two buttons, and leaves the camera flags and the other
    suspended tasks as they were. *)
Theorem press_with_refused_request (s : State) (r : Settled) :
  isMobile = true -> permission s <> granted -> I1 s ->
  settles_granted r = false ->
  permission (toggle_call r s) = denied
  /\ flashlightOn (toggle_call r s) = false
  /\ message (toggle_call r s) <> None
  /\ alerts (toggle_call r s) = (alerts s ++ [alert_permission_needed])%list
  /\ pending (toggle_call r s) = pending s
  /\ cameraReady (toggle_call r s) = cameraReady s
  /\ cameraAvailable (toggle_call r s) = cameraAvailable s.
Proof.
  intros Hm Hp H1 Hr.
  assert (Hoff : flashlightOn s = false).
  { destruct (flashlightOn s) eqn:E; [| reflexivity]. now destruct (Hp (H1 E)). }
  unfold toggle_call, run, fold_left.
  rewrite (step_toggle_suspends s Hm Hp).
  unfold step, suspend. simpl. rewrite nth_error_last, remove_nth_last. simpl.
  match goal with
  | |- context [commit ?p ?c] =>
      destruct (commit_frame p c) as (-> & -> & -> & -> & _ & _ & _ & -> & ->);
      rewrite (commit_off p c)
  end.
  - unfold toggleFlashlight_after_request, requestPermission_settled.
    destruct r as [response |]; simpl in *; [rewrite Hr |]; simpl;
      repeat split; discriminate.
  - unfold toggleFlashlight_after_request, requestPermission_settled.
    destruct r as [response |]; simpl in *; [rewrite Hr |]; simpl; exact Hoff.
Qed.

(** X16.  On a supported platform with the camera ready, a press made
    without the permission whose request is then granted goes on to
    switch the torch on: the permission is granted, the flag and its ref
    are on, the message is cleared and no alert is shown. *)
Theorem press_that_obtains_permission (s : State) (r : Settled) :
  isMobile = true -> permission s <> granted -> I1 s ->
  readiness s = Ready ->
  settles_granted r = true ->
  permission (toggle_call r s) = granted
  /\ flashlightOn (toggle_call r s) = true
  /\ torchStateRef (toggle_call r s) = true
  /\ message (toggle_call r s) = None
  /\ alerts (toggle_call r s) = alerts s
  /\ pending (toggle_call r s) = pending s.
Proof.
  intros Hm Hp H1 Hready Hr.
  assert (Hoff : flashlightOn s = false).
  { destruct (flashlightOn s) eqn:E; [| reflexivity]. now destruct (Hp (H1 E)). }
  apply readiness_Ready in Hready. destruct Hready as [Ha Hc].
  unfold toggle_call, run, fold_left.
  rewrite (step_toggle_suspends s Hm Hp). rewrite Ha, Hc.
  unfold step, suspend. simpl. rewrite nth_error_last, remove_nth_last. simpl.
  destruct r as [response |]; simpl in Hr; [| discriminate Hr].
  unfold toggleFlashlight_after_request, requestPermission_settled, toggle_tail.
  rewrite Hr. simpl. rewrite Hoff. simpl.
  unfold commit, run_effects. simpl. rewrite Hoff. simpl.
  destruct (PermissionState_eqb (permission s) granted); simpl; repeat split.
Qed.

Lemma handle_permission_known (e : Event) (s : State) :
  permission s <> unknown -> permission (handle e s) <> unknown.
Proof.
  intro H. unfold_handlers.
  repeat (case_match; simpl); try assumption; discriminate.
Qed.

(** X17.  No event brings the permission back to unknown: once the first
    answer has arrived the status text never reads Checking again. *)
Theorem permission_never_unknown_again (s : State) (es : list Event) :
  permission s <> unknown ->
  permission (run s es) <> unknown
  /\ statusText (run s es) <> "Checking camera permission...".
Proof.
  intro H.
  assert (Hk : permission (run s es) <> unknown).
  { revert s H. induction es as [| e es IH]; intros s H; simpl; [exact H |].
    apply IH. unfold step.
    destruct (commit_frame s (handle e s)) as (-> & _).
    now apply handle_permission_known. }
  split; [exact Hk |].
  unfold statusText.
  destruct (permission (run s es)); [now destruct Hk | |];
    repeat (case_if; simpl); discriminate.
Qed.

(** X18.  Only [onMountError] clears [cameraReady]: in particular a
    revoked permission, which takes the camera view away, leaves the flag
    set for the next session of the view. *)
Theorem cameraReady_cleared_only_by_error (s : State) (e : Event) :
  cameraReady s = true -> cameraReady (step s e) = false ->
  exists error_message, e = CameraError error_message.
Proof.
  unfold step.
  destruct (commit_frame s (handle e s)) as (_ & -> & _).
  intros Hs He. destruct e as [| m | next | | i r].
  - discriminate He.
  - now exists m.
  - exfalso. revert He. unfold_handlers.
    repeat (case_match; simpl); congruence.
  - exfalso. revert He. unfold_handlers.
    repeat (case_match; simpl); congruence.
  - exfalso. revert He. unfold_handlers.
    repeat (case_match; simpl); congruence.
Qed.

(** X19.  Alerts come from [toggleFlashlight] alone: an event that is
    neither a press nor the resumption of one shows none. *)
Theorem alerts_only_from_toggle (s : State) (e : Event) :
  toggle_path s e = false -> alerts (step s e) = alerts s.
Proof.
  unfold step.
  destruct (commit_frame s (handle e s)) as (_ & _ & _ & _ & _ & _ & _ & _ & ->).
  unfold toggle_path. destruct e as [| m | next | | i r]; simpl.
  - reflexivity.
  - reflexivity.
  - intros _. unfold onAppStateChange, suspend.
    repeat (case_if; simpl); reflexivity.
  - discriminate.
  - destruct (nth_error (pending s) i) as [t |]; [| reflexivity].
    destruct t; simpl; try discriminate; intros _; unfold_handlers;
      repeat (case_match; simpl); reflexivity.
Qed.

(** X20.  When the foreground query reports that the permission is no
    longer granted, the same event leaves the permission denied, the
    torch flag off and the camera view unrendered. *)
Theorem revoked_permission_switches_torch_off
        (s : State) (i : nat) (response : Camera.PermissionResponse) :
  I1 s ->
  nth_error (pending s) i = Some foreground_query ->
  Camera.is_granted response = false ->
  permission (step s (Settle i (fulfilled response))) = denied
  /\ flashlightOn (step s (Settle i (fulfilled response))) = false
  /\ enableTorch (step s (Settle i (fulfilled response))) = None
  /\ button_enabled (step s (Settle i (fulfilled response))) = false.
Proof.
  intros H1 Hi Hr.
  assert (Hp : permission (step s (Settle i (fulfilled response))) = denied).
  { unfold step.
    destruct (commit_frame s (handle (Settle i (fulfilled response)) s)) as (-> & _).
    simpl. rewrite Hi. simpl. now rewrite Hr. }
  assert (Hf : flashlightOn (step s (Settle i (fulfilled response))) = false).
  { unfold step, commit, run_effects. simpl. rewrite Hi. simpl. rewrite Hr.
    unfold I1 in H1. destruct_state s. simpl in *.
    destruct torch; [rewrite (H1 eq_refl) |]; simpl; try reflexivity.
    destruct perm; reflexivity. }
  unfold enableTorch, button_enabled. rewrite Hp, Hf. repeat split.
Qed.

Lemma prefix_iff (a b : string) :
  String.prefix a b = true <-> exists post, b = a ++ post.
Proof.
  revert b. induction a as [| c a IH]; intro b.
  - split; [intros _; now exists b | intros _; now destruct b].
  - destruct b as [| d b]; simpl.
    + split; [discriminate | intros [post H]; discriminate H].
    + destruct (Ascii.ascii_dec c d) as [-> | Hne].
      * rewrite IH. split; intros [post H]; exists post.
        -- now rewrite H.
        -- now injection H.
      * split; [discriminate |].
        intros [post H]. injection H as H _. now destruct Hne.
Qed.

(** X21.  The test that stands for [nextState.match(/word/)] at line 125
    succeeds exactly when the word occurs in the text, at any position. *)
Theorem includes_iff (needle hay : string) :
  includes needle hay = true <-> exists pre post, hay = pre ++ needle ++ post.
Proof.
  assert (Eq : forall h, includes needle h
                         = if String.prefix needle h then true
                           else match h with
                                | EmptyString => false
                                | String _ rest => includes needle rest
                                end)
    by (intro h; destruct h; reflexivity).
  split.
  - induction hay as [| c hay IH]; rewrite Eq.
    + destruct (String.prefix needle EmptyString) eqn:E; [| discriminate].
      intros _. apply prefix_iff in E. destruct E as [post E].
      exists EmptyString, post. exact E.
    + destruct (String.prefix needle (String c hay)) eqn:E.
      * intros _. apply prefix_iff in E. destruct E as [post E].
        exists EmptyString, post. exact E.
      * intro H. destruct (IH H) as (pre & post & ->).
        exists (String c pre), post. reflexivity.
  - intros (pre & post & ->). induction pre as [| c pre IH]; rewrite Eq.
    + assert (E : String.prefix needle (needle ++ post) = true)
        by (apply prefix_iff; now exists post).
      simpl. now rewrite E.
    + change (String c pre ++ needle ++ post)
        with (String c (pre ++ needle ++ post)).
      destruct (String.prefix needle _); [reflexivity | exact IH].
Qed.

(** X22.  The first render and its effects: on Android and iOS the
    permission is unknown, the one suspended task is the permission
    query, the listener is registered and the status text reads Checking;
    elsewhere the permission is denied and nothing is suspended or
    registered.  In both cases the torch is off, the camera view is not
    rendered and the button is disabled. *)
Theorem first_render_and_effects (currentState : AppState.Status) :
  permission (initialize currentState) = (if isMobile then unknown else denied)
  /\ pending (initialize currentState) = (if isMobile then [ensure_query] else [])
  /\ subscription (initialize currentState) = isMobile
  /\ mounted (initialize currentState) = isMobile
  /\ appStateRef (initialize currentState) = currentState
  /\ flashlightOn (initialize currentState) = false
  /\ enableTorch (initialize currentState) = None
  /\ button_enabled (initialize currentState) = false
  /\ statusText (initialize currentState)
     = (if isMobile then "Checking camera permission..."
        else "Flashlight works only on Android/iOS devices.").
Proof.
  unfold initialize, mount_effects, first_render, enableTorch, button_enabled,
    statusText.
  destruct isMobile; simpl; repeat split.
Qed.

Lemma step_alerts_gated (s : State) (e : Event) :
  settled_camera s ->
  (e = Toggle -> button_enabled s = true) ->
  alerts (step s e) = alerts s.
Proof.
  intros [Hp _] Hb. unfold step.
  destruct (commit_frame s (handle e s)) as (_ & _ & _ & _ & _ & _ & _ & _ & ->).
  destruct e as [| m | next | | i r]; simpl.
  - reflexivity.
  - reflexivity.
  - unfold onAppStateChange, suspend. repeat (case_if; simpl); reflexivity.
  - specialize (Hb eq_refl). unfold button_enabled in Hb.
    unfold toggleFlashlight, toggle_tail.
    destruct isMobile, (PermissionState_eqb (permission s) granted),
      (cameraAvailable s), (cameraReady s); simpl in *;
      try discriminate Hb; reflexivity.
  - destruct (nth_error (pending s) i) as [t |] eqn:E; [| reflexivity].
    pose proof (forallb_nth_error _ _ _ _ Hp E) as Ht.
    destruct t; simpl in Ht; try discriminate Ht; unfold_handlers;
      repeat (case_match; simpl); reflexivity.
Qed.

(** X23.  In every run in which the button gates each press, no alert is
    ever shown and no press ever waits for a permission request: from the
    rendered button the three alerts of [toggleFlashlight] and its call of
    [requestPermission] are out of reach. *)
Theorem gated_runs_show_no_alert (currentState : AppState.Status) (es : list Event) :
  button_gated (initialize currentState) es = true ->
  alerts (run (initialize currentState) es) = []
  /\ forallb (fun t => negb (is_toggle_request t))
             (pending (run (initialize currentState) es)) = true.
Proof.
  intro Hg. split.
  - assert (Ha : alerts (initialize currentState) = []).
    { unfold initialize, mount_effects, first_render.
      destruct isMobile; reflexivity. }
    pose proof (initialize_settled currentState) as Hs.
    revert Hg Ha Hs. generalize (initialize currentState).
    induction es as [| e es IH]; intros s Hg Ha Hs; simpl in *; [exact Ha |].
    apply andb_true_iff in Hg. destruct Hg as [He Hg].
    assert (Hb : e = Toggle -> button_enabled s = true) by (intros ->; exact He).
    apply IH; [exact Hg | | now apply step_settled].
    now rewrite step_alerts_gated.
  - now destruct (run_settled _ es (initialize_settled currentState) Hg).
Qed.

(** X24.  With the permission granted and the camera ready on a supported
    platform, [n] presses in a row leave the torch flag as it was when [n]
    is even and flipped when [n] is odd. *)
Theorem presses_flip_by_parity (n : nat) (s : State) :
  isMobile = true -> permission s = granted -> readiness s = Ready ->
  flashlightOn (run s (repeat Toggle n))
  = (if Nat.even n then flashlightOn s else negb (flashlightOn s)).
Proof.
  intros Hm. revert s. induction n as [| n IH]; intros s Hp Hr; [reflexivity |].
  change (run s (repeat Toggle (S n))) with (run (step s Toggle) (repeat Toggle n)).
  rewrite (step_toggle_ready s Hm Hp Hr).
  rewrite IH.
  - rewrite Nat.even_succ, <- Nat.negb_even.
    destruct (Nat.even n); simpl; [reflexivity | apply negb_involutive].
  - exact Hp.
  - apply readiness_Ready in Hr. apply readiness_Ready. exact Hr.
Qed.

Lemma step_to_active (u : State) :
  subscription u = true ->
  flashlightOn u = false ->
  flashlightOn (step u (AppStateChange AppState.active)) = false
  /\ appStateRef (step u (AppStateChange AppState.active)) = AppState.active
  /\ pending (step u (AppStateChange AppState.active))
     = (pending u ++ [foreground_query])%list.
Proof.
  intros Hs Hoff. unfold step.
  destruct (commit_frame u (handle (AppStateChange AppState.active) u))
    as (_ & _ & _ & _ & -> & _ & _ & -> & _).
  rewrite commit_off; simpl; rewrite Hs; unfold onAppStateChange, suspend;
    change (AppState.eqb AppState.active AppState.active) with true; cbv iota.
  - repeat split; repeat (case_if; simpl); reflexivity.
  - repeat (case_if; simpl); try reflexivity; exact Hoff.
Qed.

(** X25.  Leaving the foreground and coming back: after any events, with
    the app active on a supported platform, a change to background or
    inactive followed by a change to active leaves the torch off (it does
    not come back on by itself), the app state active again, and one more
    permission query suspended. *)
Theorem leave_and_return (currentState : AppState.Status) (es : list Event)
        (nextState : AppState.Status) :
  isMobile = true ->
  appStateRef (run (initialize currentState) es) = AppState.active ->
  match_inactive_or_background nextState = true ->
  flashlightOn
    (run (run (initialize currentState) es)
         [AppStateChange nextState; AppStateChange AppState.active]) = false
  /\ appStateRef
    (run (run (initialize currentState) es)
         [AppStateChange nextState; AppStateChange AppState.active])
     = AppState.active
  /\ pending
    (run (run (initialize currentState) es)
         [AppStateChange nextState; AppStateChange AppState.active])
     = (pending (run (initialize currentState) es) ++ [foreground_query])%list.
Proof.
  intros Hm Hprev Hnext.
  pose proof (run_consistent _ es (initialize_consistent currentState)) as Hc.
  generalize dependent (run (initialize currentState) es). intros s Hprev Hc.
  destruct (handle_leaving_active s nextState Hc Hprev Hnext) as [Hoff _].
  destruct Hc as (_ & _ & Hsub & _). specialize (Hsub Hm).
  apply match_inactive_or_background_iff in Hnext.
  assert (Hoff1 : flashlightOn (step s (AppStateChange nextState)) = false)
    by (unfold step; now apply commit_off).
  assert (Hsub1 : subscription (step s (AppStateChange nextState)) = true).
  { unfold step.
    destruct (commit_frame s (handle (AppStateChange nextState) s))
      as (_ & _ & _ & _ & _ & _ & -> & _).
    now rewrite handle_subscription. }
  assert (Hpend1 : pending (step s (AppStateChange nextState)) = pending s).
  { unfold step.
    destruct (commit_frame s (handle (AppStateChange nextState) s))
      as (_ & _ & _ & _ & _ & _ & _ & -> & _).
    simpl. rewrite Hsub. unfold onAppStateChange, suspend.
    destruct Hnext as [-> | ->];
      [change (AppState.eqb AppState.background AppState.active) with false
      | change (AppState.eqb AppState.inactive AppState.active) with false];
      cbv iota; repeat (case_if; simpl); reflexivity. }
  change (run s [AppStateChange nextState; AppStateChange AppState.active])
    with (step (step s (AppStateChange nextState))
               (AppStateChange AppState.active)).
  rewrite <- Hpend1. now apply step_to_active.
Qed.

End Reconciler.

(** ** The claims on concrete runs *)

(** Scenario B of the spec is a run in which the button gates every
    press; the invariants hold at its end. *)
Lemma invariants_after_every_event_witness :
  button_gated true (initialize true AppState.active)
               ([Settle 0 grants; CameraReady; Toggle] ++ []) = true
  /\ I2 (run true (initialize true AppState.active)
             [Settle 0 grants; CameraReady; Toggle])
  /\ I4 (run true (initialize true AppState.active)
             [Settle 0 grants; CameraReady; Toggle]).
Proof.
  split; [vm_compute; reflexivity |].
  exact (proj2 (invariants_after_every_event true AppState.active
                  [Settle 0 grants; CameraReady; Toggle] []) eq_refl).
Defined.


Lemma camera_error_rejects_every_later_toggle_witness :
  flashlightOn (run true (initialize true AppState.active)
                    [Settle 0 grants; CameraReady; Toggle]) = true
  /\ flashlightOn
       (after_camera_error true AppState.active
          [Settle 0 grants; CameraReady; Toggle] (Some "X") []) = false.
Proof.
  split; [vm_compute; reflexivity |].
  exact (proj1 (camera_error_rejects_every_later_toggle true AppState.active
                  [Settle 0 grants; CameraReady; Toggle] (Some "X") eq_refl)).
Defined.

(** C2 as stated fails: after Scenario E a fresh [onCameraReady] sets
    [cameraReady], yet the camera is still Errored and the next press is
    refused with the Camera unavailable alert. *)
Lemma toggle_refused_after_fresh_camera_ready :
  cameraReady (ready_after_error true) = true
  /\ readiness (ready_after_error true) = Errored
  /\ permission (ready_after_error true) = granted
  /\ flashlightOn (ready_after_error true) = false
  /\ flashlightOn (step true (ready_after_error true) Toggle) = false
  /\ alerts (step true (ready_after_error true) Toggle) = [alert_camera_unavailable].
Proof. vm_compute. repeat split. Qed.

(** C3 fails on the code: with the component torn down, the foreground
    query and the permission request of a press still write the cells
    when they settle; only [ensurePermission] reads [mounted]. *)
Theorem completions_after_unmount_write_state :
  mounted (torn_down true) = false
  /\ nth_error (pending (torn_down true)) 1 = Some foreground_query
  /\ permission (torn_down true) = unknown
  /\ permission (step true (torn_down true) (Settle 1 grants)) = granted
  /\ mounted (torn_down_request true) = false
  /\ nth_error (pending (torn_down_request true)) 1 = Some (toggle_request true false)
  /\ permission (step true (torn_down_request true) (Settle 1 denies)) = denied
  /\ message (step true (torn_down_request true) (Settle 1 denies))
     = Some "Camera access is required to control the flashlight."
  /\ step true (torn_down true) (Settle 0 grants)
     = set_pending [foreground_query] (torn_down true).
Proof. vm_compute. repeat split. Qed.

Lemma leaving_foreground_switches_torch_off_witness :
  appStateRef (run true (initialize true AppState.active)
                   [Settle 0 grants; CameraReady; Toggle]) = AppState.active
  /\ match_inactive_or_background AppState.background = true
  /\ flashlightOn (run true (initialize true AppState.active)
                       [Settle 0 grants; CameraReady; Toggle]) = true
  /\ flashlightOn
       (handle true (AppStateChange AppState.background)
          (run true (initialize true AppState.active)
               [Settle 0 grants; CameraReady; Toggle])) = false.
Proof.
  split; [vm_compute; reflexivity |].
  split; [vm_compute; reflexivity |].
  split; [vm_compute; reflexivity |].
  exact (proj1 (leaving_foreground_switches_torch_off true AppState.active
                  [Settle 0 grants; CameraReady; Toggle] AppState.background
                  eq_refl eq_refl)).
Defined.

Lemma toggle_flips_and_only_toggle_switches_on_witness :
  permission (scenario_B true) = granted
  /\ readiness (scenario_B true) = Ready
  /\ flashlightOn (step true (scenario_B true) Toggle)
     = negb (flashlightOn (scenario_B true)).
Proof.
  split; [vm_compute; reflexivity |].
  split; [vm_compute; reflexivity |].
  exact (proj1 (toggle_flips_and_only_toggle_switches_on true (scenario_B true)
                  eq_refl eq_refl eq_refl)).
Defined.

Lemma toggle_twice_restores_flag_witness :
  permission (scenario_B true) = granted
  /\ readiness (scenario_B true) = Ready
  /\ flashlightOn (run true (scenario_B true) [Toggle; Toggle])
     = flashlightOn (scenario_B true).
Proof.
  split; [vm_compute; reflexivity |].
  split; [vm_compute; reflexivity |].
  exact (proj1 (toggle_twice_restores_flag true (scenario_B true)
                  eq_refl eq_refl eq_refl)).
Defined.

Lemma toggle_while_starting_changes_message_only_witness :
  permission (scenario_A true) = granted
  /\ readiness (scenario_A true) = NotReady
  /\ run true (scenario_A true) (repeat Toggle 3)
     = setMessage (Some still_starting) (scenario_A true).
Proof.
  split; [vm_compute; reflexivity |].
  split; [vm_compute; reflexivity |].
  exact (proj2 (toggle_while_starting_changes_message_only true (scenario_A true) 2
                  eq_refl eq_refl eq_refl)).
Defined.

Lemma foreground_requery_witness :
  subscription (initialize true AppState.background) = true
  /\ nth_error
       (pending (step true (initialize true AppState.background)
                      (AppStateChange AppState.active))) 1
     = Some foreground_query
  /\ permission
       (step true
          (step true (initialize true AppState.background)
                (AppStateChange AppState.active))
          (Settle 1 denies)) = denied.
Proof.
  split; [vm_compute; reflexivity |].
  split; [vm_compute; reflexivity |].
  exact (proj1 (proj2 (foreground_requery true
                  (initialize true AppState.background)
                  (step true (initialize true AppState.background)
                        (AppStateChange AppState.active))
                  1 (Camera.mkResponse Camera.DENIED false) eq_refl eq_refl))).
Defined.

(** C10 as stated fails: with the camera failed and the permission then
    revoked, a press whose request is denied ends with the Permission
    needed alert, not with Camera unavailable. *)
Lemma revoked_permission_changes_the_notice :
  errored_then_revoked true
  = after_camera_error true AppState.active [Settle 0 grants] (Some "X")
      [AppStateChange AppState.background; AppStateChange AppState.active;
       Settle 0 denies]
  /\ cameraAvailable (errored_then_revoked true) = false
  /\ permission (errored_then_revoked true) = denied
  /\ alerts (errored_then_revoked true) = []
  /\ alerts (toggle_call true denies (errored_then_revoked true))
     = [alert_permission_needed].
Proof. vm_compute. repeat split. Qed.

(** ** The further properties on concrete runs *)

Lemma ensurePermission_outcomes_witness :
  permission (step true (initialize true AppState.active) (Settle 0 grants)) = granted.
Proof.
  destruct (ensurePermission_outcomes true (initialize true AppState.active)
              0 ensure_query grants)
    as [(H & _) | [(H & _) | (_ & _ & H & _)]];
    try (vm_compute; reflexivity);
    vm_compute in H; discriminate H.
Defined.

Lemma ensurePermission_guarded_witness :
  mounted (torn_down true) = false
  /\ step true (torn_down true) (Settle 0 grants)
     = set_pending (remove_nth 0 (pending (torn_down true))) (torn_down true).
Proof.
  split; [vm_compute; reflexivity |].
  apply (ensurePermission_guarded true (torn_down true) 0 ensure_query grants);
    vm_compute; reflexivity.
Defined.

Lemma unsupported_platform_is_inert_witness :
  permission (run false (initialize false AppState.active)
                  [Toggle; CameraReady; AppStateChange AppState.background])
  = denied.
Proof.
  exact (proj1 (unsupported_platform_is_inert false AppState.active
                  [Toggle; CameraReady; AppStateChange AppState.background]
                  eq_refl)).
Defined.

Lemma unsupported_platform_presses_witness :
  alerts (run false (initialize false AppState.active) (repeat Toggle 2))
  = [alert_not_supported; alert_not_supported].
Proof.
  rewrite (unsupported_platform_presses false (initialize false AppState.active) 2
             eq_refl).
  vm_compute. reflexivity.
Defined.

Lemma lifecycle_listener_frame_witness :
  subscription (scenario_B true) = true
  /\ appStateRef (step true (scenario_B true) (AppStateChange AppState.background))
     = AppState.background.
Proof.
  split; [vm_compute; reflexivity |].
  apply (lifecycle_listener_frame true (scenario_B true) AppState.background).
  vm_compute. reflexivity.
Defined.

Lemma enabled_press_is_synchronous_witness :
  button_enabled true (scenario_B true) = true
  /\ pending (step true (scenario_B true) Toggle) = pending (scenario_B true).
Proof.
  split; [vm_compute; reflexivity |].
  apply (enabled_press_is_synchronous true (scenario_B true)).
  vm_compute. reflexivity.
Defined.

Lemma status_text_shows_torch_witness :
  button_gated true (initialize true AppState.active)
               [Settle 0 grants; CameraReady; Toggle] = true
  /\ (flashlightOn (run true (initialize true AppState.active)
                        [Settle 0 grants; CameraReady; Toggle]) = true
      <-> statusText true (run true (initialize true AppState.active)
                               [Settle 0 grants; CameraReady; Toggle])
          = "Flashlight is ON.").
Proof.
  split; [vm_compute; reflexivity |].
  apply (status_text_shows_torch true AppState.active
           [Settle 0 grants; CameraReady; Toggle]).
  vm_compute. reflexivity.
Defined.

Lemma press_with_refused_request_witness :
  permission (initialize true AppState.active) = unknown
  /\ permission (toggle_call true denies (initialize true AppState.active)) = denied.
Proof.
  split; [vm_compute; reflexivity |].
  apply (press_with_refused_request true (initialize true AppState.active) denies).
  - reflexivity.
  - vm_compute. discriminate.
  - intro H. vm_compute in H. discriminate H.
  - vm_compute. reflexivity.
Defined.

Lemma press_that_obtains_permission_witness :
  permission (run true (scenario_A true)
                  [CameraReady; AppStateChange AppState.background;
                   AppStateChange AppState.active; Settle 0 denies]) = denied
  /\ flashlightOn
       (toggle_call true grants
          (run true (scenario_A true)
               [CameraReady; AppStateChange AppState.background;
                AppStateChange AppState.active; Settle 0 denies])) = true.
Proof.
  split; [vm_compute; reflexivity |].
  apply (press_that_obtains_permission true
           (run true (scenario_A true)
                [CameraReady; AppStateChange AppState.background;
                 AppStateChange AppState.active; Settle 0 denies]) grants).
  - reflexivity.
  - vm_compute. discriminate.
  - intro H. vm_compute in H. discriminate H.
  - vm_compute. reflexivity.
  - vm_compute. reflexivity.
Defined.

Lemma permission_never_unknown_again_witness :
  permission (scenario_A true) = granted
  /\ permission (run true (scenario_A true) [Toggle; CameraError None]) <> unknown.
Proof.
  split; [vm_compute; reflexivity |].
  apply (permission_never_unknown_again true (scenario_A true)
           [Toggle; CameraError None]).
  vm_compute. discriminate.
Defined.

Lemma cameraReady_cleared_only_by_error_witness :
  cameraReady (scenario_B true) = true
  /\ cameraReady (step true (scenario_B true) (CameraError None)) = false
  /\ exists error_message, CameraError None = CameraError error_message.
Proof.
  split; [vm_compute; reflexivity |].
  split; [vm_compute; reflexivity |].
  apply (cameraReady_cleared_only_by_error true (scenario_B true) (CameraError None));
    vm_compute; reflexivity.
Defined.

Lemma alerts_only_from_toggle_witness :
  toggle_path (scenario_B true) (Settle 0 grants) = false
  /\ alerts (step true (scenario_B true) (Settle 0 grants))
     = alerts (scenario_B true).
Proof.
  split; [vm_compute; reflexivity |].
  apply (alerts_only_from_toggle true (scenario_B true) (Settle 0 grants)).
  vm_compute. reflexivity.
Defined.

Lemma revoked_permission_switches_torch_off_witness :
  flashlightOn (step true (scenario_B true) (AppStateChange AppState.active)) = true
  /\ flashlightOn
       (step true
          (step true (scenario_B true) (AppStateChange AppState.active))
          (Settle 0 denies)) = false.
Proof.
  split; [vm_compute; reflexivity |].
  apply (revoked_permission_switches_torch_off true
           (step true (scenario_B true) (AppStateChange AppState.active))
           0 (Camera.mkResponse Camera.DENIED false)).
  - intros _. vm_compute. reflexivity.
  - vm_compute. reflexivity.
  - vm_compute. reflexivity.
Defined.

Lemma gated_runs_show_no_alert_witness :
  button_gated true (initialize true AppState.active)
               [Settle 0 grants; CameraReady; Toggle; CameraError None] = true
  /\ alerts (run true (initialize true AppState.active)
                 [Settle 0 grants; CameraReady; Toggle; CameraError None]) = [].
Proof.
  split; [vm_compute; reflexivity |].
  apply (gated_runs_show_no_alert true AppState.active
           [Settle 0 grants; CameraReady; Toggle; CameraError None]).
  vm_compute. reflexivity.
Defined.

Lemma presses_flip_by_parity_witness :
  flashlightOn (scenario_B true) = true
  /\ flashlightOn (run true (scenario_B true) (repeat Toggle 3)) = false.
Proof.
  split; [vm_compute; reflexivity |].
  rewrite (presses_flip_by_parity true 3 (scenario_B true));
    vm_compute; reflexivity.
Defined.

Lemma leave_and_return_witness :
  flashlightOn (run true (initialize true AppState.active)
                    [Settle 0 grants; CameraReady; Toggle]) = true
  /\ flashlightOn
       (run true
          (run true (initialize true AppState.active)
               [Settle 0 grants; CameraReady; Toggle])
          [AppStateChange AppState.inactive; AppStateChange AppState.active])
     = false.
Proof.
  split; [vm_compute; reflexivity |].
  apply (leave_and_return true AppState.active
           [Settle 0 grants; CameraReady; Toggle] AppState.inactive);
    vm_compute; reflexivity.
Defined.
